(** * edtry-chunker: a shallow embedding of [app.py]

    The service has one inbound route ([POST /chunk]), one background
    task ([process_lesson]) and one outbound call
    ([send_to_laravel_with_retry]).  Python values are modelled as
    follows:

    - [str] is a list of Unicode code points, [int] is [Z], a [float] is
      a binary64 primitive float, so the product [delay * (2 ** attempt)]
      rounds and saturates as it does in Python, and the conversion of
      [2 ** attempt] to a float raises [OverflowError] from [2 ** 1024]
      on;
    - a [dict] is an association list in insertion order, JSON values
      are the inductive [json];
    - logging, printing, sleeping, the outbound POST and the call of the
      chunker are events appended to a trace; exceptions are a result
      constructor, and [try]/[except] is a combinator that selects by
      exception class;
    - the module globals read from the environment ([API_KEY],
      [LARAVEL_API_URL]), the third-party [chunker] object and the
      behaviour of the remote endpoint are parameters;
    - [logger] calls are total writes to the trace; [print] writes to
      the standard output, which is a parameter too: it may refuse a
      payload with an exception; [asyncio.sleep] records the duration it
      is called with;
    - the exceptions are instances of [Exception]: signals that derive
      from [BaseException] only (cancellation, keyboard interrupt) are
      outside the model;
    - of the framework, the model keeps what the route declares: the key
      header is required ([Header(...)]), the dependency runs before the
      handler, an [HTTPException] becomes a response with its status, a
      returned dict becomes a 200 response, and background tasks run
      after the response is sent; an exception of a background task ends
      at the server and never reaches the client. *)

From Stdlib Require Import List String Ascii ZArith NArith Bool Lia.
From Stdlib Require Import PrimFloat FloatOps.
Import ListNotations.
Local Open Scope Z_scope.
Set Warnings "-register-all".

(** ** Python values *)

(** A Python [str]: a sequence of Unicode code points. *)
Definition str := list N.

(** A string literal of the source. *)
Definition lit (s : string) : str :=
  map N_of_ascii (list_ascii_of_string s).

Definition str_eqb (a b : str) : bool :=
  if list_eq_dec N.eq_dec a b then true else false.

(** [x == y] where [y] may be [None] (the result of [os.getenv]). *)
Definition opt_str_eqb (a b : option str) : bool :=
  match a, b with
  | Some x, Some y => str_eqb x y
  | None, None => true
  | _, _ => false
  end.

(** [c.isspace()] for a single code point, the set [str.strip()] removes. *)
Definition isspace (c : N) : bool :=
  (((9 <=? c) && (c <=? 13)) || ((28 <=? c) && (c <=? 32))
   || (c =? 133) || (c =? 160) || (c =? 5760)
   || ((8192 <=? c) && (c <=? 8202))
   || (c =? 8232) || (c =? 8233) || (c =? 8239) || (c =? 8287)
   || (c =? 12288))%N.

Fixpoint lstrip (s : str) : str :=
  match s with
  | [] => []
  | c :: r => if isspace c then lstrip r else s
  end.

Definition rstrip (s : str) : str := rev (lstrip (rev s)).

(** [s.strip()] *)
Definition strip (s : str) : str := rstrip (lstrip s).

(** JSON values; a [dict] keeps its insertion order. *)
Inductive json : Type :=
| JNull
| JInt (z : Z)
| JStr (s : str)
| JList (l : list json)
| JObj (fields : list (string * json)).

Definition dict := list (string * json).

(** [d.get(key)] *)
Fixpoint dict_get (d : dict) (key : string) : option json :=
  match d with
  | [] => None
  | (k, v) :: r => if String.eqb k key then Some v else dict_get r key
  end.

Definition keys (d : dict) : list string := map fst d.

(** [enumerate(l)] *)
Fixpoint enumerate_from {A : Type} (start : Z) (l : list A) : list (Z * A) :=
  match l with
  | [] => []
  | x :: r => (start, x) :: enumerate_from (start + 1) r
  end.

Definition enumerate {A : Type} (l : list A) : list (Z * A) :=
  enumerate_from 0 l.

(** [range(n)] *)
Definition range (n : Z) : list Z :=
  map Z.of_nat (seq 0 (Z.to_nat n)).

(** ** Data model *)

Record LessonInput : Type := mkLessonInput {
  course_id : Z;
  lesson_id : Z;
  lesson_title : str;
  lesson_content : str;
  type : str
}.

(** What the chunker returns: objects with a [text] attribute. *)
Record Chunk : Type := mkChunk { text : str }.

(** ** Exceptions *)

Inductive exn : Type :=
| HTTPException (status_code : Z) (detail : string)  (* fastapi *)
| HTTPError (e : str)          (* httpx.HTTPError and its subclasses *)
| ValueError (msg : string)    (* also json.JSONDecodeError *)
| OverflowError (msg : string)
| OtherException (e : str).    (* any other subclass of Exception *)

Inductive exn_class : Type := Exception | httpx_HTTPError.

Definition isinstance (e : exn) (c : exn_class) : bool :=
  match c, e with
  | Exception, _ => true
  | httpx_HTTPError, HTTPError _ => true
  | httpx_HTTPError, _ => false
  end.

(** ** Effects *)

Inductive Level : Type := INFO | WARNING | ERROR.

(** The log messages of the source, one constructor per format string. *)
Inductive LogMsg : Type :=
| SentToLaravel                                   (* line 62 *)
| AttemptFailed (attempt_plus_1 : Z) (e : exn)    (* line 65 *)
| AllRetriesFailed (lesson : option json)         (* line 69 *)
| ChunkingFailed (lesson : Z) (e : exn)           (* line 82 *)
| ProcessedAndSent (lesson : Z)                   (* line 96 *)
| FinalFailure (lesson : Z) (e : exn).            (* line 98 *)

(** What [client.post] gives back: [raise_for_status()] raises when
    [status_error] is set, [json()] raises when the body does not decode. *)
Record Response : Type := mkResponse {
  status_error : option str;
  json_body : option json
}.

Inductive PostOutcome : Type :=
| PostRaised (e : exn)
| PostReturned (r : Response).

(** What the framework sends back to the client of [POST /chunk]. *)
Inductive HttpResponse : Type :=
| JSONResponse (status : Z) (content : dict)
| ValidationError              (* 422, request validation failed *)
| ServerError.                 (* 500, unhandled exception *)

Definition status_of (r : HttpResponse) : Z :=
  match r with
  | JSONResponse s _ => s
  | ValidationError => 422
  | ServerError => 500
  end.

Inductive Event : Type :=
| Respond (r : HttpResponse)
| Log (lvl : Level) (msg : LogMsg)
| Print (payload : dict)
| Sleep (seconds : float)
| ChunkerCall (full_text : str)
| Post (url : option str) (headers : list (string * option str)) (body : dict).

Definition World := list Event.

Inductive Result (A : Type) : Type :=
| Ret (a : A)
| Raise (e : exn).
Arguments Ret {A} a.
Arguments Raise {A} e.

(** State (the trace) and exceptions. *)
Definition M (A : Type) : Type := World -> Result A * World.

Definition ret {A : Type} (a : A) : M A := fun w => (Ret a, w).

Definition raise {A : Type} (e : exn) : M A := fun w => (Raise e, w).

Definition bind {A B : Type} (m : M A) (k : A -> M B) : M B :=
  fun w =>
    match m w with
    | (Ret a, w') => k a w'
    | (Raise e, w') => (Raise e, w')
    end.

Declare Scope py_scope.
Delimit Scope py_scope with py.
Notation "x <- m ;; k" := (bind m (fun x => k))
  (at level 100, m at next level, right associativity) : py_scope.
Notation "m ;; k" := (bind m (fun _ => k))
  (at level 100, right associativity) : py_scope.
Local Open Scope py_scope.

(** [try: body except cls as e: handler e]; an exception of another class
    goes through. *)
Definition try_except {A : Type} (body : M A) (cls : exn_class)
    (handler : exn -> M A) : M A :=
  fun w =>
    match body w with
    | (Ret a, w') => (Ret a, w')
    | (Raise e, w') =>
        if isinstance e cls then handler e w' else (Raise e, w')
    end.

Definition emit (ev : Event) : M unit := fun w => (Ret tt, w ++ [ev]).

Definition logger (lvl : Level) (msg : LogMsg) : M unit := emit (Log lvl msg).

(** [await asyncio.sleep(seconds)] *)
Definition asyncio_sleep (seconds : float) : M unit := emit (Sleep seconds).

(** [float(2 ** attempt)] for [attempt >= 0], the conversion the product
    [delay * (2 ** attempt)] starts with: exact up to [2 ** 1023], an
    [OverflowError] beyond. *)
Definition float_of_pow2 (attempt : Z) : M float :=
  if attempt <? 1024
  then ret (Z.ldexp 1%float attempt)
  else raise (OverflowError "int too large to convert to float").

(** The number of outbound POSTs the trace records. *)
Fixpoint n_posts (w : World) : nat :=
  match w with
  | [] => 0
  | Post _ _ _ :: r => S (n_posts r)
  | _ :: r => n_posts r
  end.

(** ** The program *)

(** The module globals and the two external parties. *)
Record Env : Type := mkEnv {
  API_KEY : option str;          (* os.getenv("EDTRY_INTERNAL_API_KEY") *)
  LARAVEL_API_URL : option str;  (* os.getenv("LARAVEL_API_URL") *)
  chunker : str -> Result (list Chunk);
  (* the outcome of the n-th outbound POST, counted from 0 *)
  net : nat -> PostOutcome;
  (* what writing a payload to the standard output raises, if anything *)
  stdout : dict -> option exn
}.

Section Program.

Variable env : Env.

(** *** AUTH *)

Definition verify_api_key (x_internal_api_key : str) : Result unit :=
  if negb (opt_str_eqb (Some x_internal_api_key) (API_KEY env))
  then Raise (HTTPException 401 "Unauthorized")
  else Ret tt.

(** [print(payload)] *)
Definition print (payload : dict) : M unit :=
  match stdout env payload with
  | Some e => raise e
  | None => emit (Print payload)
  end.

(** *** Delivery *)

Definition client_post (url : option str) (payload : dict)
    (headers : list (string * option str)) : M Response :=
  fun w =>
    let w' := w ++ [Post url headers payload] in
    match net env (n_posts w) with
    | PostRaised e => (Raise e, w')
    | PostReturned r => (Ret r, w')
    end.

Definition raise_for_status (r : Response) : M unit :=
  match status_error r with
  | Some e => raise (HTTPError e)
  | None => ret tt
  end.

Definition response_json (r : Response) : M json :=
  match json_body r with
  | Some j => ret j
  | None => raise (ValueError "JSONDecodeError")
  end.

(** One iteration of the loop of [send_to_laravel_with_retry]:
    [Some j] when the function returns [j], [None] when the loop goes on. *)
Definition attempt_body (payload : dict) (retries : Z) (delay : float)
    (headers : list (string * option str)) (attempt : Z) : M (option json) :=
  try_except
    (response <- client_post (LARAVEL_API_URL env) payload headers ;;
     raise_for_status response ;;
     logger INFO SentToLaravel ;;
     j <- response_json response ;;
     ret (Some j))
    httpx_HTTPError
    (fun e =>
       logger WARNING (AttemptFailed (attempt + 1) e) ;;
       if attempt <? retries - 1
       then p <- float_of_pow2 attempt ;;
            asyncio_sleep (PrimFloat.mul delay p) ;; ret None
       else logger ERROR (AllRetriesFailed (dict_get payload "lesson_id")) ;;
            raise e).

Fixpoint for_attempt (payload : dict) (retries : Z) (delay : float)
    (headers : list (string * option str)) (attempts : list Z) : M json :=
  match attempts with
  | [] => ret JNull
  | attempt :: rest =>
      r <- attempt_body payload retries delay headers attempt ;;
      match r with
      | Some j => ret j
      | None => for_attempt payload retries delay headers rest
      end
  end.

Definition send_to_laravel_with_retry (payload : dict) (retries : Z)
    (delay : float) : M json :=
  let headers := [("X-Internal-API-Key"%string, API_KEY env)] in
  for_attempt payload retries delay headers (range retries).

(** *** Background task *)

Definition call_chunker (full_text : str) : M (list Chunk) :=
  fun w => (chunker env full_text, w ++ [ChunkerCall full_text]).

Definition chunk_record (p : Z * Chunk) : json :=
  JObj [("text"%string, JStr (text (snd p)));
        ("chunk_index"%string, JInt (fst p))].

(** The body of the first [try] of [process_lesson]. *)
Definition chunking_stage (full_text : str) : M (list json) :=
  chunked_objs <- call_chunker full_text ;;
  let chunks := map chunk_record (enumerate chunked_objs) in
  match chunks with
  | [] => raise (ValueError "No chunks produced.")
  | _ :: _ => ret chunks
  end.

Definition build_payload (data : LessonInput) (full_text : str)
    (chunks : list json) : dict :=
  [("title"%string, JStr (strip (lesson_title data)));
   ("text"%string, JStr full_text);
   ("course_id"%string, JInt (course_id data));
   ("lesson_id"%string, JInt (lesson_id data));
   ("type"%string, JStr (type data));
   ("chunks"%string, JList chunks)].

Definition default_retries : Z := 3.
Definition default_delay : float := 2%float.

Definition process_lesson (data : LessonInput) : M unit :=
  let full_text := strip (lesson_content data) in
  r <- try_except
         (chunks <- chunking_stage full_text ;; ret (Some chunks))
         Exception
         (fun e =>
            logger ERROR (ChunkingFailed (lesson_id data) e) ;; ret None) ;;
  match r with
  | None => ret tt
  | Some chunks =>
      let payload := build_payload data full_text chunks in
      print payload ;;
      try_except
        (send_to_laravel_with_retry payload default_retries default_delay ;;
         logger INFO (ProcessedAndSent (lesson_id data)))
        Exception
        (fun e => logger ERROR (FinalFailure (lesson_id data) e))
  end.

(** *** ROUTES *)

Definition allowed_types : list str :=
  [lit "created"; lit "updated"; lit "deleted"].

Definition accepted_body : dict :=
  [("message"%string,
    JStr (lit "Chunking request accepted and processing in background."))].

(** The handler, after the dependency [verify_api_key] has passed;
    [background_tasks] is the list [add_task] appends to. *)
Definition chunk_lesson (data : LessonInput)
    (background_tasks : list LessonInput) : Result dict * list LessonInput :=
  if negb (existsb (str_eqb (type data)) allowed_types)
  then (Raise (HTTPException 400 "Invalid lesson type"), background_tasks)
  else (Ret accepted_body, background_tasks ++ [data]).

(** A request to [POST /chunk] whose body validates as a [LessonInput]. *)
Record Request : Type := mkRequest {
  x_internal_api_key : option str;
  body : LessonInput
}.

Definition exception_response (e : exn) : HttpResponse :=
  match e with
  | HTTPException s d =>
      JSONResponse s [("detail"%string, JStr (lit d))]
  | _ => ServerError
  end.

(** The route: the header is declared [Header(...)], so it is required and
    its absence is a validation error; then the dependency runs, then the
    handler.  The second component is what has been scheduled. *)
Definition post_chunk (req : Request) : HttpResponse * list LessonInput :=
  match x_internal_api_key req with
  | None => (ValidationError, [])
  | Some key =>
      match verify_api_key key with
      | Raise e => (exception_response e, [])
      | Ret _ =>
          match chunk_lesson (body req) [] with
          | (Ret d, tasks) => (JSONResponse 200 d, tasks)
          | (Raise e, tasks) => (exception_response e, tasks)
          end
      end
  end.

Fixpoint run_tasks (tasks : list LessonInput) : M unit :=
  match tasks with
  | [] => ret tt
  | t :: r => process_lesson t ;; run_tasks r
  end.

(** One request from arrival to the end of its background work: the
    response is sent first, the scheduled tasks run afterwards; what a
    task raises ends at the server. *)
Definition serve (req : Request) : M HttpResponse :=
  let (resp, tasks) := post_chunk req in
  emit (Respond resp) ;;
  try_except (run_tasks tasks) Exception (fun _ => ret tt) ;;
  ret resp.

End Program.

(** ** Sample environments

    Concrete instances of the parameters, used to run the program. *)

(** Cut a text into consecutive pieces of [size] code points. *)
Fixpoint pieces (size fuel : nat) (s : str) : list str :=
  match fuel with
  | O => []
  | S f =>
      match s with
      | [] => []
      | _ :: _ => firstn size s :: pieces size f (skipn size s)
      end
  end.

(** A chunker that slices its input: no chunk for the empty text. *)
Definition slice_chunker (size : nat) (t : str) : Result (list Chunk) :=
  Ret (map mkChunk (pieces (S size) (List.length t) t)).

Definition failing_chunker (t : str) : Result (list Chunk) :=
  Raise (OtherException (lit "tokenizer failure")).


Definition ok_response : Response :=
  mkResponse None (Some (JObj [("status"%string, JStr (lit "ok"))])).


Definition net_up (k : nat) : PostOutcome := PostReturned ok_response.

Definition net_crash (k : nat) : PostOutcome :=
  PostRaised (OtherException (lit "InvalidURL")).

Definition net_bad_json (k : nat) : PostOutcome :=
  PostReturned (mkResponse None None).


Definition secret : str := lit "s3cret".

Definition stdout_open (payload : dict) : option exn := None.

Definition stdout_ascii (payload : dict) : option exn :=
  Some (OtherException (lit "UnicodeEncodeError")).

Definition sample_env (c : str -> Result (list Chunk))
    (n : nat -> PostOutcome) : Env :=
  mkEnv (Some secret) (Some (lit "https://laravel.test/api/chunks")) c n
        stdout_open.

Definition sample_lesson : LessonInput :=
  mkLessonInput 1 42 (lit " Intro ")
    (lit "  Lists are finite sequences. Maps are finite functions.  ")
    (lit "created").


Definition sample_payload : dict :=
  [("lesson_id"%string, JInt 42)].

Definition tiny_lesson : LessonInput :=
  mkLessonInput 7 9 (lit " T ") (lit "  ab cd ") (lit "updated").

Definition odd_lesson : LessonInput :=
  mkLessonInput 7 10 (lit "T") (lit "ab cd") (lit "archived").

Definition tiny_env (n : nat -> PostOutcome) : Env :=
  sample_env (slice_chunker 2) n.

Definition env_without_secret : Env :=
  mkEnv None (Some (lit "https://laravel.test/api/chunks"))
        (slice_chunker 2) net_up stdout_open.

Definition env_ascii_stdout : Env :=
  mkEnv (Some secret) (Some (lit "https://laravel.test/api/chunks"))
        (slice_chunker 2) net_up stdout_ascii.

(** ** Observations on traces and outcomes *)

(** The durations of the sleeps the trace records, in order. *)
Fixpoint sleeps (w : World) : list float :=
  match w with
  | [] => []
  | Sleep s :: r => s :: sleeps r
  | _ :: r => sleeps r
  end.

(** The error a delivery attempt ends with when it raises an
    [httpx.HTTPError]: a transport error of [client.post], or the status
    error of [raise_for_status]. *)
Definition http_failure (o : PostOutcome) : option str :=
  match o with
  | PostRaised (HTTPError e) => Some e
  | PostRaised _ => None
  | PostReturned r => status_error r
  end.

(** The value a delivery attempt returns when nothing raises. *)
Definition delivered (o : PostOutcome) : option json :=
  match o with
  | PostRaised _ => None
  | PostReturned r =>
      match status_error r with
      | Some _ => None
      | None => json_body r
      end
  end.

(** The backoff before the attempt that follows attempt number [k]
    (counted from 0), for [k <= 1023]: the float product
    [delay * (2 ** k)]. *)
Definition backoff (delay : float) (k : nat) : float :=
  PrimFloat.mul delay (Z.ldexp 1%float (Z.of_nat k)).

(** The outbound request of [send_to_laravel_with_retry]. *)
Definition post_event (env : Env) (payload : dict) : Event :=
  Post (LARAVEL_API_URL env)
       [("X-Internal-API-Key"%string, API_KEY env)] payload.

Definition is_post (ev : Event) : bool :=
  match ev with
  | Post _ _ _ => true
  | _ => false
  end.



(** The number of calls of the chunker the trace records. *)
Fixpoint n_chunker_calls (w : World) : nat :=
  match w with
  | [] => 0
  | ChunkerCall _ :: r => S (n_chunker_calls r)
  | _ :: r => n_chunker_calls r
  end.

Definition is_sleep (ev : Event) : bool :=
  match ev with
  | Sleep _ => true
  | _ => false
  end.

(** The requests and the sleeps of a trace, in the order they happen. *)
Definition skeleton (w : World) : list Event :=
  filter (fun ev => is_post ev || is_sleep ev) w.

(** [m] requests each followed by its backoff, numbered from [a], then
    one last request: a sleep between two consecutive requests and none
    after the last. *)
Fixpoint schedule (env : Env) (payload : dict) (delay : float)
    (a m : nat) : list Event :=
  match m with
  | O => [Post (LARAVEL_API_URL env)
               [("X-Internal-API-Key"%string, API_KEY env)] payload]
  | S m' =>
      Post (LARAVEL_API_URL env)
           [("X-Internal-API-Key"%string, API_KEY env)] payload
      :: Sleep (backoff delay a)
      :: schedule env payload delay (S a) m'
  end.



(** ** Basic facts *)

Lemma str_eqb_eq (a b : str) : str_eqb a b = true <-> a = b.
Proof.
  unfold str_eqb. destruct (list_eq_dec N.eq_dec a b); split; congruence.
Qed.

Lemma str_eqb_refl (a : str) : str_eqb a a = true.
Proof. now apply str_eqb_eq. Qed.

Lemma allowed_types_In (t : str) :
  existsb (str_eqb t) allowed_types = true <-> In t allowed_types.
Proof.
  rewrite existsb_exists. split.
  - intros (x & Hin & Heq). apply str_eqb_eq in Heq. now subst.
  - intros Hin. exists t. split; [assumption | apply str_eqb_refl].
Qed.



Lemma n_posts_app (w1 w2 : World) :
  n_posts (w1 ++ w2) = (n_posts w1 + n_posts w2)%nat.
Proof.
  induction w1 as [| ev w1 IH]; simpl; [reflexivity |].
  destruct ev; simpl; rewrite IH; reflexivity.
Qed.


Lemma n_chunker_calls_app (w1 w2 : World) :
  n_chunker_calls (w1 ++ w2) = (n_chunker_calls w1 + n_chunker_calls w2)%nat.
Proof.
  induction w1 as [| ev w1 IH]; simpl; [reflexivity |].
  destruct ev; simpl; rewrite IH; reflexivity.
Qed.

Lemma skeleton_app (w1 w2 : World) :
  skeleton (w1 ++ w2) = skeleton w1 ++ skeleton w2.
Proof. apply filter_app. Qed.

(** A trace without request and without sleep has an empty skeleton. *)
Lemma skeleton_nil (w : World) :
  n_posts w = 0%nat -> sleeps w = [] -> skeleton w = [].
Proof.
  induction w as [| ev w IH]; [reflexivity |].
  destruct ev; simpl; intros Hp Hs; try discriminate; now apply IH.
Qed.

Lemma n_posts_skeleton (w : World) : n_posts (skeleton w) = n_posts w.
Proof.
  induction w as [| ev w IH]; [reflexivity |].
  destruct ev; simpl; now rewrite ?IH.
Qed.

Lemma sleeps_skeleton (w : World) : sleeps (skeleton w) = sleeps w.
Proof.
  induction w as [| ev w IH]; [reflexivity |].
  destruct ev; simpl; now rewrite ?IH.
Qed.

(** ** The route *)

Section RouteProps.

Variable env : Env.

Lemma verify_api_key_ok (key : str) :
  API_KEY env = Some key -> verify_api_key env key = Ret tt.
Proof.
  intros H. unfold verify_api_key. rewrite H. simpl.
  now rewrite str_eqb_refl.
Qed.

Lemma verify_api_key_rejects (key : str) :
  API_KEY env <> Some key ->
  verify_api_key env key = Raise (HTTPException 401 "Unauthorized").
Proof.
  intros H. unfold verify_api_key.
  destruct (API_KEY env) as [k |]; simpl; [| reflexivity].
  destruct (str_eqb key k) eqn:E; [| reflexivity].
  apply str_eqb_eq in E. subst. congruence.
Qed.

Lemma chunk_lesson_invalid (data : LessonInput) (tasks : list LessonInput) :
  ~ In (type data) allowed_types ->
  chunk_lesson data tasks =
    (Raise (HTTPException 400 "Invalid lesson type"), tasks).
Proof.
  intros H. unfold chunk_lesson.
  destruct (existsb (str_eqb (type data)) allowed_types) eqn:E;
    [| reflexivity].
  apply allowed_types_In in E. contradiction.
Qed.

Lemma chunk_lesson_valid (data : LessonInput) (tasks : list LessonInput) :
  In (type data) allowed_types ->
  chunk_lesson data tasks = (Ret accepted_body, tasks ++ [data]).
Proof.
  intros H. unfold chunk_lesson.
  apply allowed_types_In in H. now rewrite H.
Qed.

(** C3: with the correct key, a [type] outside created / updated / deleted
    is answered with status 400, nothing is scheduled, and serving the
    request adds nothing to the trace but the response: no chunker call,
    no outbound POST. *)
Theorem invalid_type_is_400_and_schedules_nothing :
  forall (req : Request) (key : str) (w : World),
    API_KEY env = Some key ->
    x_internal_api_key req = Some key ->
    ~ In (type (body req)) allowed_types ->
    let resp :=
      JSONResponse 400 [("detail"%string, JStr (lit "Invalid lesson type"))] in
    post_chunk env req = (resp, []) /\
    status_of (fst (post_chunk env req)) = 400 /\
    serve env req w = (Ret resp, w ++ [Respond resp]).
Proof.
  intros req key w Hkey Hhdr Hty resp.
  assert (Hpc : post_chunk env req = (resp, [])).
  { unfold post_chunk. rewrite Hhdr, (verify_api_key_ok _ Hkey).
    now rewrite (chunk_lesson_invalid _ _ Hty). }
  split; [exact Hpc |]. split; [now rewrite Hpc |].
  unfold serve. rewrite Hpc. reflexivity.
Qed.

(** C4 (amended): a request whose key header is not the configured secret
    schedules nothing, whatever its lesson type; the status is 401 when the
    header is present, and 422 when it is missing, because the required
    header is rejected before [verify_api_key] runs. *)
Theorem bad_key_is_rejected_for_every_type :
  forall (req : Request),
    (forall key, x_internal_api_key req = Some key ->
                 API_KEY env <> Some key) ->
    snd (post_chunk env req) = [] /\
    status_of (fst (post_chunk env req)) =
      match x_internal_api_key req with
      | Some _ => 401
      | None => 422
      end.
Proof.
  intros req H. unfold post_chunk.
  destruct (x_internal_api_key req) as [key |]; [| now split].
  rewrite (verify_api_key_rejects key (H key eq_refl)). now split.
Qed.

(** C10: when the secret is absent from the environment, every key the
    header can carry is rejected with 401 and nothing is scheduled. *)
Theorem absent_secret_rejects_every_key :
  forall (req : Request) (key : str),
    API_KEY env = None ->
    x_internal_api_key req = Some key ->
    verify_api_key env key = Raise (HTTPException 401 "Unauthorized") /\
    post_chunk env req =
      (JSONResponse 401 [("detail"%string, JStr (lit "Unauthorized"))], []).
Proof.
  intros req key Hnone Hhdr.
  assert (Hv : verify_api_key env key =
               Raise (HTTPException 401 "Unauthorized")).
  { apply verify_api_key_rejects. rewrite Hnone. discriminate. }
  split; [exact Hv |].
  unfold post_chunk. rewrite Hhdr, Hv. reflexivity.
Qed.

End RouteProps.

(** ** Delivery with retry *)

Section DeliveryProps.

Variable env : Env.

(** A failed attempt that is not the last: the request, the warning, the
    backoff sleep, and the loop goes on. *)
Lemma attempt_body_retry (payload : dict) (retries : Z) (delay : float)
    (attempt : Z) (w : World) (e : str) :
  http_failure (net env (n_posts w)) = Some e ->
  attempt < retries - 1 ->
  attempt < 1024 ->
  attempt_body env payload retries delay
    [("X-Internal-API-Key"%string, API_KEY env)] attempt w =
  (Ret None,
   w ++ [post_event env payload;
         Log WARNING (AttemptFailed (attempt + 1) (HTTPError e));
         Sleep (PrimFloat.mul delay (Z.ldexp 1%float attempt))]).
Proof.
  intros Hf Hlt Hsmall. apply Z.ltb_lt in Hlt. apply Z.ltb_lt in Hsmall.
  unfold attempt_body, try_except, bind, client_post, raise_for_status,
    float_of_pow2, logger, asyncio_sleep, emit, raise, ret, post_event.
  destruct (net env (n_posts w)) as [[] | [[se |] jb]]; simpl in Hf;
    try discriminate; injection Hf as ->; simpl; rewrite Hlt, Hsmall;
    rewrite <- !app_assoc; reflexivity.
Qed.

(** A failed attempt that is not the last, numbered 1024 or more: the
    conversion of the power of two raises inside the handler. *)
Lemma attempt_body_overflow (payload : dict) (retries : Z) (delay : float)
    (attempt : Z) (w : World) (e : str) :
  http_failure (net env (n_posts w)) = Some e ->
  attempt < retries - 1 ->
  1024 <= attempt ->
  attempt_body env payload retries delay
    [("X-Internal-API-Key"%string, API_KEY env)] attempt w =
  (Raise (OverflowError "int too large to convert to float"),
   w ++ [post_event env payload;
         Log WARNING (AttemptFailed (attempt + 1) (HTTPError e))]).
Proof.
  intros Hf Hlt Hbig. apply Z.ltb_lt in Hlt. apply Z.ltb_ge in Hbig.
  unfold attempt_body, try_except, bind, client_post, raise_for_status,
    float_of_pow2, logger, asyncio_sleep, emit, raise, ret, post_event.
  destruct (net env (n_posts w)) as [[] | [[se |] jb]]; simpl in Hf;
    try discriminate; injection Hf as ->; simpl; rewrite Hlt, Hbig;
    rewrite <- !app_assoc; reflexivity.
Qed.

(** A failed last attempt: the request, the warning, the error, and the
    exception is raised again. *)
Lemma attempt_body_give_up (payload : dict) (retries : Z) (delay : float)
    (attempt : Z) (w : World) (e : str) :
  http_failure (net env (n_posts w)) = Some e ->
  retries - 1 <= attempt ->
  attempt_body env payload retries delay
    [("X-Internal-API-Key"%string, API_KEY env)] attempt w =
  (Raise (HTTPError e),
   w ++ [post_event env payload;
         Log WARNING (AttemptFailed (attempt + 1) (HTTPError e));
         Log ERROR (AllRetriesFailed (dict_get payload "lesson_id"))]).
Proof.
  intros Hf Hge. apply Z.ltb_ge in Hge.
  unfold attempt_body, try_except, bind, client_post, raise_for_status,
    logger, asyncio_sleep, emit, raise, ret, post_event.
  destruct (net env (n_posts w)) as [[] | [[se |] jb]]; simpl in Hf;
    try discriminate; injection Hf as ->; simpl; rewrite Hge;
    rewrite <- !app_assoc; reflexivity.
Qed.

(** A successful attempt: the request, the info line, and the decoded
    body is returned. *)
Lemma attempt_body_success (payload : dict) (retries : Z) (delay : float)
    (attempt : Z) (w : World) (j : json) :
  delivered (net env (n_posts w)) = Some j ->
  attempt_body env payload retries delay
    [("X-Internal-API-Key"%string, API_KEY env)] attempt w =
  (Ret (Some j), w ++ [post_event env payload; Log INFO SentToLaravel]).
Proof.
  intros Hd.
  unfold attempt_body, try_except, bind, client_post, raise_for_status,
    response_json, logger, emit, raise, ret, post_event.
  destruct (net env (n_posts w)) as [ex | [[se |] [jb |]]]; simpl in Hd;
    try discriminate; injection Hd as ->; simpl;
    rewrite <- !app_assoc; reflexivity.
Qed.






End DeliveryProps.

(** ** The background task *)

Section TaskProps.

Variable env : Env.

Lemma chunking_stage_ok (t : str) (c : Chunk) (cs : list Chunk) (w : World) :
  chunker env t = Ret (c :: cs) ->
  chunking_stage env t w =
    (Ret (map chunk_record (enumerate (c :: cs))), w ++ [ChunkerCall t]).
Proof.
  intros H. unfold chunking_stage, bind, call_chunker. now rewrite H.
Qed.

Lemma chunking_stage_empty (t : str) (w : World) :
  chunker env t = Ret [] ->
  chunking_stage env t w =
    (Raise (ValueError "No chunks produced."), w ++ [ChunkerCall t]).
Proof.
  intros H. unfold chunking_stage, bind, call_chunker. now rewrite H.
Qed.

Lemma chunking_stage_raises (t : str) (e : exn) (w : World) :
  chunker env t = Raise e ->
  chunking_stage env t w = (Raise e, w ++ [ChunkerCall t]).
Proof.
  intros H. unfold chunking_stage, bind, call_chunker. now rewrite H.
Qed.

(** The stage calls the chunker and adds nothing else to the trace. *)
Lemma chunking_stage_trace (t : str) (w : World) :
  snd (chunking_stage env t w) = w ++ [ChunkerCall t].
Proof.
  unfold chunking_stage, bind, call_chunker.
  destruct (chunker env t) as [[| c cs] | e]; reflexivity.
Qed.

(** When chunking fails, the task logs the error and returns. *)
Lemma process_lesson_chunking_failed (data : LessonInput) (e : exn)
    (w w1 : World) :
  chunking_stage env (strip (lesson_content data)) w = (Raise e, w1) ->
  process_lesson env data w =
    (Ret tt, w1 ++ [Log ERROR (ChunkingFailed (lesson_id data) e)]).
Proof.
  intros H. unfold process_lesson, bind at 1, try_except, bind at 1.
  rewrite H. destruct e; reflexivity.
Qed.

(** When chunking succeeds and the payload is printed, the task delivers
    it; whatever the delivery does, the task returns. *)
Lemma process_lesson_chunked (data : LessonInput) (chunks : list json)
    (w w1 : World) :
  chunking_stage env (strip (lesson_content data)) w = (Ret chunks, w1) ->
  let payload := build_payload data (strip (lesson_content data)) chunks in
  stdout env payload = None ->
  process_lesson env data w =
    match send_to_laravel_with_retry env payload default_retries
            default_delay (w1 ++ [Print payload]) with
    | (Ret _, w2) => (Ret tt, w2 ++ [Log INFO (ProcessedAndSent (lesson_id data))])
    | (Raise e, w2) =>
        (Ret tt, w2 ++ [Log ERROR (FinalFailure (lesson_id data) e)])
    end.
Proof.
  intros H payload Hout.
  unfold process_lesson, bind at 1, try_except at 1, bind at 1.
  rewrite H. unfold ret at 1. cbv beta iota. fold payload.
  unfold bind at 1, print. rewrite Hout. unfold emit.
  unfold try_except, bind.
  destruct (send_to_laravel_with_retry env payload default_retries
              default_delay (w1 ++ [Print payload])) as [[j | e] w2].
  - reflexivity.
  - destruct e; reflexivity.
Qed.

(** When chunking succeeds and [print] raises, the exception leaves the
    task: [print] is called between the two [try] blocks. *)
Lemma process_lesson_print_raises (data : LessonInput) (chunks : list json)
    (w w1 : World) (e : exn) :
  chunking_stage env (strip (lesson_content data)) w = (Ret chunks, w1) ->
  stdout env (build_payload data (strip (lesson_content data)) chunks)
    = Some e ->
  process_lesson env data w = (Raise e, w1).
Proof.
  intros H Hout.
  unfold process_lesson, bind at 1, try_except at 1, bind at 1.
  rewrite H. unfold ret at 1. cbv beta iota.
  unfold bind at 1, print. now rewrite Hout.
Qed.

Lemma enumerate_from_length {A : Type} (l : list A) (start : Z) :
  List.length (enumerate_from start l) = List.length l.
Proof.
  revert start. induction l as [| x l IH]; intros start; simpl;
    [reflexivity | now rewrite IH].
Qed.

Lemma enumerate_from_nth {A : Type} (l : list A) :
  forall (start : Z) (k : nat) (x : A),
    nth_error l k = Some x ->
    nth_error (enumerate_from start l) k = Some (start + Z.of_nat k, x).
Proof.
  induction l as [| y l IH]; intros start k x H.
  - destruct k; discriminate.
  - destruct k as [| k]; simpl in *.
    + injection H as ->. now rewrite Z.add_0_r.
    + rewrite (IH (start + 1) k x H). f_equal. f_equal. lia.
Qed.








(** C6: when the chunker raises or returns no chunk, the task calls the
    chunker, logs one error and returns: no payload is printed, no
    request is sent, nothing is raised. *)
Theorem chunking_failure_aborts_silently :
  forall (data : LessonInput) (w : World),
    (chunker env (strip (lesson_content data)) = Ret [] \/
     exists e, chunker env (strip (lesson_content data)) = Raise e) ->
    exists e : exn,
      process_lesson env data w =
        (Ret tt,
         w ++ [ChunkerCall (strip (lesson_content data));
               Log ERROR (ChunkingFailed (lesson_id data) e)]) /\
      n_posts (snd (process_lesson env data w)) = n_posts w /\
      (chunker env (strip (lesson_content data)) = Ret [] ->
       e = ValueError "No chunks produced.") /\
      (forall e', chunker env (strip (lesson_content data)) = Raise e' ->
                  e = e').
Proof.
  intros data w [Hempty | [e He]].
  - exists (ValueError "No chunks produced.").
    assert (Hp := process_lesson_chunking_failed data _ w _
                    (chunking_stage_empty _ w Hempty)).
    rewrite <- app_assoc in Hp. simpl in Hp. rewrite Hp.
    split; [reflexivity |]. split; [| split].
    + simpl. rewrite n_posts_app. simpl. lia.
    + reflexivity.
    + intros e' He'. congruence.
  - exists e.
    assert (Hp := process_lesson_chunking_failed data _ w _
                    (chunking_stage_raises _ e w He)).
    rewrite <- app_assoc in Hp. simpl in Hp. rewrite Hp.
    split; [reflexivity |]. split; [| split].
    + simpl. rewrite n_posts_app. simpl. lia.
    + intros Hempty. congruence.
    + intros e' He'. congruence.
Qed.

(** Whatever the remote end does, one iteration sends exactly one
    request, the first thing it does, and that request is [post_event]. *)
Lemma attempt_body_trace (payload : dict) (retries : Z) (delay : float)
    (attempt : Z) (w : World) :
  exists tail,
    snd (attempt_body env payload retries delay
           [("X-Internal-API-Key"%string, API_KEY env)] attempt w) =
      w ++ post_event env payload :: tail /\
    Forall (fun ev => is_post ev = false) tail.
Proof.
  unfold attempt_body, try_except, bind, client_post, raise_for_status,
    response_json, float_of_pow2, logger, asyncio_sleep, emit, raise, ret,
    post_event.
  destruct (net env (n_posts w)) as [[] | [[se |] [jb |]]]; simpl;
    try destruct (attempt <? retries - 1); simpl;
    try destruct (attempt <? 1024); simpl;
    rewrite <- ?app_assoc; simpl;
    eexists; (split; [reflexivity | repeat constructor]).
Qed.

Lemma for_attempt_trace (payload : dict) (retries : Z) (delay : float) :
  forall (attempts : list Z) (w : World),
    exists tail,
      snd (for_attempt env payload retries delay
             [("X-Internal-API-Key"%string, API_KEY env)] attempts w) =
        w ++ tail /\
      (forall ev, In ev tail -> is_post ev = true ->
                  ev = post_event env payload) /\
      (attempts <> [] -> In (post_event env payload) tail).
Proof.
  induction attempts as [| attempt rest IH]; intros w.
  - exists []. simpl. rewrite app_nil_r.
    repeat split; [intros ev [] | congruence].
  - destruct (attempt_body_trace payload retries delay attempt w)
      as (t1 & Ht1 & Hno).
    assert (Hshape : forall ev, In ev (post_event env payload :: t1) ->
                                is_post ev = true ->
                                ev = post_event env payload).
    { intros ev [<- | Hin] Hp; [reflexivity |].
      rewrite Forall_forall in Hno. rewrite (Hno ev Hin) in Hp.
      discriminate. }
    simpl. unfold bind at 1.
    destruct (attempt_body env payload retries delay
                [("X-Internal-API-Key"%string, API_KEY env)] attempt w)
      as [[[j |] | e] w1]; simpl in Ht1; subst w1.
    + exists (post_event env payload :: t1). simpl.
      repeat split; [exact Hshape | intros _; now left].
    + destruct (IH (w ++ post_event env payload :: t1))
        as (t2 & Ht2 & Hshape2 & _).
      exists ((post_event env payload :: t1) ++ t2).
      rewrite Ht2, <- app_assoc. split; [reflexivity | split].
      * intros ev Hin Hp. apply in_app_or in Hin as [Hin | Hin];
          [now apply Hshape | now apply Hshape2].
      * intros _. now left.
    + exists (post_event env payload :: t1). simpl.
      repeat split; [exact Hshape | intros _; now left].
Qed.

(** One iteration either backs off and lets the loop go on, which takes a
    failed attempt that is neither the last nor numbered 1024 or more, or
    ends the call. *)
Lemma attempt_body_cases (payload : dict) (retries : Z) (delay : float)
    (attempt : Z) (w : World) :
  (exists e,
      attempt < retries - 1 /\ attempt < 1024 /\
      attempt_body env payload retries delay
        [("X-Internal-API-Key"%string, API_KEY env)] attempt w =
      (Ret None,
       w ++ [post_event env payload;
             Log WARNING (AttemptFailed (attempt + 1) (HTTPError e));
             Sleep (PrimFloat.mul delay (Z.ldexp 1%float attempt))])) \/
  (exists r tail,
      attempt_body env payload retries delay
        [("X-Internal-API-Key"%string, API_KEY env)] attempt w =
      (r, w ++ post_event env payload :: tail) /\
      r <> Ret None /\
      sleeps tail = [] /\ n_posts tail = 0%nat /\
      n_chunker_calls tail = 0%nat).
Proof.
  destruct (http_failure (net env (n_posts w))) as [e |] eqn:Hf.
  - destruct (Z_lt_le_dec attempt (retries - 1)) as [Hlt | Hge].
    + destruct (Z_lt_le_dec attempt 1024) as [Hsmall | Hbig].
      * left. exists e. split; [exact Hlt |]. split; [exact Hsmall |].
        now apply attempt_body_retry.
      * right. eexists. eexists.
        rewrite (attempt_body_overflow env payload retries delay attempt
                   w e Hf Hlt Hbig).
        split; [reflexivity |]. repeat split. discriminate.
    + right. eexists. eexists.
      rewrite (attempt_body_give_up env payload retries delay attempt w e
                 Hf Hge).
      split; [reflexivity |]. repeat split. discriminate.
  - right.
    unfold attempt_body, try_except, bind, client_post, raise_for_status,
      response_json, logger, asyncio_sleep, emit, raise, ret, post_event.
    destruct (net env (n_posts w)) as [[] | [[se |] [jb |]]];
      simpl in Hf; try discriminate; simpl;
      rewrite <- ?app_assoc; simpl;
      eexists; eexists; (split; [reflexivity |]);
      repeat split; discriminate.
Qed.

(** The loop over the attempts [a, a+1, ..., retries-1], for any
    behaviour of the remote end: [m] failed attempts each followed by its
    backoff, then one attempt that ends the call. *)
Lemma for_attempt_schedule (payload : dict) (retries : Z) (delay : float) :
  forall (n a : nat) (w : World),
    Z.of_nat (a + n) = retries ->
    (1 <= n)%nat ->
    Z.of_nat a <= 1024 ->
    exists (m : nat) (tail : list Event),
      (m < n)%nat /\
      Z.of_nat (a + m) <= 1024 /\
      snd (for_attempt env payload retries delay
             [("X-Internal-API-Key"%string, API_KEY env)]
             (map Z.of_nat (seq a n)) w) = w ++ tail /\
      n_posts tail = S m /\
      skeleton tail = schedule env payload delay a m /\
      n_chunker_calls tail = 0%nat.
Proof.
  induction n as [| n IH]; intros a w Hret Hn Ha; [lia |].
  cbn [seq map for_attempt]. unfold bind at 1.
  destruct (attempt_body_cases payload retries delay (Z.of_nat a) w)
    as [(e & Hlt & Hsmall & Hbody)
       | (r & tail & Hbody & Hr & Hs & Hp & Hc)];
    rewrite Hbody.
  - destruct (IH (S a)
                (w ++ [post_event env payload;
                       Log WARNING (AttemptFailed (Z.of_nat a + 1)
                                      (HTTPError e));
                       Sleep (PrimFloat.mul delay
                                (Z.ldexp 1%float (Z.of_nat a)))]))
      as (m & tail & Hm & Hb & Hrun & Hp & Hsk & Hc); [lia | lia | lia |].
    exists (S m).
    exists ([post_event env payload;
             Log WARNING (AttemptFailed (Z.of_nat a + 1) (HTTPError e));
             Sleep (PrimFloat.mul delay (Z.ldexp 1%float (Z.of_nat a)))]
              ++ tail).
    split; [lia |]. split; [lia |].
    split; [rewrite Hrun; now rewrite <- app_assoc |].
    split; [| split].
    + rewrite n_posts_app, Hp. reflexivity.
    + rewrite skeleton_app, Hsk. reflexivity.
    + rewrite n_chunker_calls_app, Hc. reflexivity.
  - exists 0%nat, (post_event env payload :: tail).
    split; [lia |]. split; [lia |]. split.
    + destruct r as [[j |] | e]; [reflexivity | congruence | reflexivity].
    + simpl. rewrite Hp, Hc, (skeleton_nil tail Hp Hs). repeat split.
Qed.

(** C7: for a lesson that chunks successfully, every request the task
    sends goes to the configured URL, carries the header
    [X-Internal-API-Key] with the configured secret and the body with the
    six keys title, text, course_id, lesson_id, type and chunks: the
    identifiers and the type as received, the title and the content
    trimmed, the chunks as the ordered records; and once the payload is
    printed, at least one such request is sent. *)
Theorem outbound_post_shape :
  forall (data : LessonInput) (c : Chunk) (cs : list Chunk) (w : World),
    chunker env (strip (lesson_content data)) = Ret (c :: cs) ->
    exists (payload : dict) (tail : list Event),
      snd (process_lesson env data w) = w ++ tail /\
      (stdout env payload = None ->
       In (Post (LARAVEL_API_URL env)
                [("X-Internal-API-Key"%string, API_KEY env)] payload) tail)
      /\
      (forall url headers body,
          In (Post url headers body) tail ->
          url = LARAVEL_API_URL env /\
          headers = [("X-Internal-API-Key"%string, API_KEY env)] /\
          body = payload) /\
      keys payload =
        ["title"; "text"; "course_id"; "lesson_id"; "type"; "chunks"]%string /\
      dict_get payload "title" = Some (JStr (strip (lesson_title data))) /\
      dict_get payload "text" = Some (JStr (strip (lesson_content data))) /\
      dict_get payload "course_id" = Some (JInt (course_id data)) /\
      dict_get payload "lesson_id" = Some (JInt (lesson_id data)) /\
      dict_get payload "type" = Some (JStr (type data)) /\
      exists chunks,
        dict_get payload "chunks" = Some (JList chunks) /\
        List.length chunks = List.length (c :: cs) /\
        forall (k : nat) (ck : Chunk),
          nth_error (c :: cs) k = Some ck ->
          nth_error chunks k =
            Some (JObj [("text"%string, JStr (text ck));
                        ("chunk_index"%string, JInt (Z.of_nat k))]).
Proof.
  intros data c cs w H.
  set (chunks := map chunk_record (enumerate (c :: cs))).
  set (payload := build_payload data (strip (lesson_content data)) chunks).
  assert (Hfields :
    keys payload =
      ["title"; "text"; "course_id"; "lesson_id"; "type"; "chunks"]%string /\
    dict_get payload "title" = Some (JStr (strip (lesson_title data))) /\
    dict_get payload "text" = Some (JStr (strip (lesson_content data))) /\
    dict_get payload "course_id" = Some (JInt (course_id data)) /\
    dict_get payload "lesson_id" = Some (JInt (lesson_id data)) /\
    dict_get payload "type" = Some (JStr (type data)) /\
    exists chunks0,
      dict_get payload "chunks" = Some (JList chunks0) /\
      List.length chunks0 = List.length (c :: cs) /\
      forall (k : nat) (ck : Chunk),
        nth_error (c :: cs) k = Some ck ->
        nth_error chunks0 k =
          Some (JObj [("text"%string, JStr (text ck));
                      ("chunk_index"%string, JInt (Z.of_nat k))])).
  { repeat (split; [reflexivity |]).
    exists chunks. split; [reflexivity |]. split.
    + unfold chunks, enumerate.
      now rewrite length_map, enumerate_from_length.
    + intros k ck Hk. unfold chunks, enumerate.
      rewrite nth_error_map, (enumerate_from_nth _ 0 k ck Hk). reflexivity. }
  exists payload.
  destruct (stdout env payload) as [e |] eqn:Hout.
  - (* print raises: the task stops before any request *)
    exists [ChunkerCall (strip (lesson_content data))].
    rewrite (process_lesson_print_raises data chunks w _ e
               (chunking_stage_ok _ c cs w H) Hout).
    split; [reflexivity |]. split; [discriminate |].
    split; [| exact Hfields].
    intros url headers body [Hd | []]. discriminate.
  - assert (Hp := process_lesson_chunked data chunks w _
                    (chunking_stage_ok _ c cs w H) Hout).
    fold payload in Hp.
    destruct (for_attempt_trace payload default_retries default_delay
                (range default_retries)
                ((w ++ [ChunkerCall (strip (lesson_content data))])
                   ++ [Print payload]))
      as (t & Ht & Hshape & Hsent).
    fold (send_to_laravel_with_retry env payload default_retries
            default_delay) in Ht.
    assert (Htail : exists lvl msg,
               snd (process_lesson env data w) =
                 w ++ [ChunkerCall (strip (lesson_content data));
                       Print payload] ++ t ++ [Log lvl msg]).
    { rewrite Hp.
      destruct (send_to_laravel_with_retry env payload default_retries
                  default_delay
                  ((w ++ [ChunkerCall (strip (lesson_content data))])
                     ++ [Print payload])) as [[j | e] w2];
        simpl in Ht; subst w2; simpl snd;
        do 2 eexists; rewrite <- !app_assoc; reflexivity. }
    destruct Htail as (lvl & msg & Htail).
    exists ([ChunkerCall (strip (lesson_content data)); Print payload]
              ++ t ++ [Log lvl msg]).
    split; [exact Htail |]. split; [| split; [| exact Hfields]].
    + intros _. apply in_or_app. right. apply in_or_app. left.
      apply Hsent. discriminate.
    + intros url headers body Hin.
      assert (Hin' : In (Post url headers body) t).
      { simpl in Hin. destruct Hin as [Hd | [Hd | Hin]]; try discriminate.
        apply in_app_or in Hin as [Hin | [Hd | []]];
          [assumption | discriminate]. }
      specialize (Hshape _ Hin' eq_refl). unfold post_event in Hshape.
      injection Hshape as -> -> ->. repeat split.
Qed.


(** C8, the run where the claim fails: when chunking succeeds and
    [print] raises on the payload, the exception leaves [process_lesson];
    nothing is logged and no request is sent. *)
Theorem unprintable_payload_escapes :
  forall (data : LessonInput) (c : Chunk) (cs : list Chunk) (w : World)
         (e : exn),
    chunker env (strip (lesson_content data)) = Ret (c :: cs) ->
    stdout env (build_payload data (strip (lesson_content data))
                  (map chunk_record (enumerate (c :: cs)))) = Some e ->
    process_lesson env data w =
      (Raise e, w ++ [ChunkerCall (strip (lesson_content data))]) /\
    n_posts (snd (process_lesson env data w)) = n_posts w.
Proof.
  intros data c cs w e Hchunk Hout.
  rewrite (process_lesson_print_raises data _ w _ e
             (chunking_stage_ok _ c cs w Hchunk) Hout).
  split; [reflexivity |]. simpl. rewrite n_posts_app. simpl. lia.
Qed.

Lemma n_posts_schedule (payload : dict) (delay : float) :
  forall (m a : nat), n_posts (schedule env payload delay a m) = S m.
Proof.
  induction m as [| m IH]; intros a; simpl; [reflexivity |].
  now rewrite IH.
Qed.

Lemma sleeps_schedule (payload : dict) (delay : float) :
  forall (m a : nat),
    sleeps (schedule env payload delay a m) = map (backoff delay) (seq a m).
Proof.
  induction m as [| m IH]; intros a; simpl; [reflexivity |].
  now rewrite IH.
Qed.

(** The shape of every run of the task: the chunker is called first and
    once; then either nothing is sent, or the requests and sleeps follow
    the schedule of at most [default_retries] attempts; and the task
    returns, unless [print] raised. *)
Lemma process_lesson_profile (data : LessonInput) (w : World) :
  exists tail : list Event,
    snd (process_lesson env data w) =
      w ++ ChunkerCall (strip (lesson_content data)) :: tail /\
    n_chunker_calls tail = 0%nat /\
    (skeleton tail = [] \/
     exists payload m,
       (m <= 2)%nat /\
       skeleton tail = schedule env payload default_delay 0 m) /\
    (fst (process_lesson env data w) = Ret tt \/
     exists chunks e,
       stdout env (build_payload data (strip (lesson_content data)) chunks)
         = Some e /\
       fst (process_lesson env data w) = Raise e /\
       tail = []).
Proof.
  pose proof (chunking_stage_trace (strip (lesson_content data)) w) as Hw1.
  destruct (chunking_stage env (strip (lesson_content data)) w)
    as [[chunks | e] w1] eqn:E; simpl in Hw1; subst w1.
  - set (p := build_payload data (strip (lesson_content data)) chunks).
    destruct (stdout env p) as [e |] eqn:Hout.
    + rewrite (process_lesson_print_raises data chunks w _ e E Hout).
      exists []. split; [reflexivity |]. split; [reflexivity |].
      split; [now left |]. right. exists chunks, e. now repeat split.
    + rewrite (process_lesson_chunked data chunks w _ E Hout). fold p.
      destruct (for_attempt_schedule p default_retries default_delay
                  3 0 ((w ++ [ChunkerCall (strip (lesson_content data))])
                         ++ [Print p]) eq_refl)
        as (m & t & Hm & _ & Hrun & Hp & Hsk & Hc); [lia | lia |].
      change (map Z.of_nat (seq 0 3)) with (range default_retries) in Hrun.
      fold (send_to_laravel_with_retry env p default_retries default_delay)
        in Hrun.
      destruct (send_to_laravel_with_retry env p default_retries
                  default_delay
                  ((w ++ [ChunkerCall (strip (lesson_content data))])
                     ++ [Print p])) as [[j | e] w2];
        simpl in Hrun; subst w2; simpl snd; simpl fst;
        eexists; (split; [rewrite <- !app_assoc; simpl; reflexivity |]);
        simpl; rewrite n_chunker_calls_app, Hc;
        (split; [reflexivity |]);
        (split; [| now left]);
        right; exists p, m; (split; [lia |]);
        change (Print p :: t ++ ?l) with ([Print p] ++ t ++ l);
        rewrite !skeleton_app, Hsk; simpl; now rewrite app_nil_r.
  - rewrite (process_lesson_chunking_failed data e w _ E).
    eexists. simpl snd.
    split; [rewrite <- app_assoc; simpl; reflexivity |].
    split; [reflexivity |]. split; now left.
Qed.

(** C9: with the correct key and a documented [type], the handler answers
    with the acknowledgement, a JSON object with the single string field
    [message], and schedules the lesson; the response is the first event
    of serving the request, and the events of chunking and delivery, those
    of [process_lesson], all come after it. *)
Theorem valid_request_is_acknowledged_first :
  forall (req : Request) (key : str) (w : World),
    API_KEY env = Some key ->
    x_internal_api_key req = Some key ->
    In (type (body req)) allowed_types ->
    let resp := JSONResponse 200 accepted_body in
    post_chunk env req = (resp, [body req]) /\
    keys accepted_body = ["message"%string] /\
    (exists m : str, dict_get accepted_body "message" = Some (JStr m)) /\
    fst (serve env req w) = Ret resp /\
    snd (serve env req w) =
      snd (process_lesson env (body req) (w ++ [Respond resp])) /\
    exists background,
      snd (serve env req w) = w ++ Respond resp :: background.
Proof.
  intros req key w Hkey Hhdr Hty resp.
  assert (Hpc : post_chunk env req = (resp, [body req])).
  { unfold post_chunk. rewrite Hhdr, (verify_api_key_ok env _ Hkey).
    now rewrite (chunk_lesson_valid _ _ Hty). }
  split; [exact Hpc |]. split; [reflexivity |].
  split; [eexists; reflexivity |].
  assert (Hserve : serve env req w =
            (Ret resp,
             snd (process_lesson env (body req) (w ++ [Respond resp])))).
  { unfold serve. rewrite Hpc. unfold bind, emit, try_except. simpl.
    unfold bind.
    destruct (process_lesson env (body req) (w ++ [Respond resp]))
      as [[[] | e] w1]; [reflexivity | destruct e; reflexivity]. }
  rewrite Hserve. split; [reflexivity |]. split; [reflexivity |].
  simpl snd.
  destruct (process_lesson_profile (body req) (w ++ [Respond resp]))
    as (tail & Htr & _).
  rewrite Htr, <- app_assoc. eexists. reflexivity.
Qed.

(** X1: with [retries <= 0] the loop has no iteration: no request, no log
    line, no sleep, and the function returns [None]. *)
Theorem no_attempt_without_retries :
  forall (payload : dict) (retries : Z) (delay : float) (w : World),
    retries <= 0 ->
    send_to_laravel_with_retry env payload retries delay w = (Ret JNull, w).
Proof.
  intros payload retries delay w H.
  unfold send_to_laravel_with_retry, range.
  replace (Z.to_nat retries) with 0%nat by lia. reflexivity.
Qed.

(** X2: an exception of the POST that is not an [httpx.HTTPError] is not
    retried: whatever the number of attempts left, the call ends after
    one request, without a warning and without a sleep, and raises it. *)
Theorem other_exception_is_not_retried :
  forall (payload : dict) (retries : Z) (delay : float) (w : World) (e : exn),
    1 <= retries ->
    net env (n_posts w) = PostRaised e ->
    isinstance e httpx_HTTPError = false ->
    send_to_laravel_with_retry env payload retries delay w =
      (Raise e, w ++ [post_event env payload]).
Proof.
  intros payload retries delay w e Hret Hnet Hcls.
  unfold send_to_laravel_with_retry, range.
  replace (Z.to_nat retries) with (S (Z.to_nat retries - 1)) by lia.
  cbn [seq map for_attempt]. unfold bind at 1.
  unfold attempt_body, try_except, bind, client_post.
  rewrite Hnet, Hcls. reflexivity.
Qed.

(** X3: a response that passes [raise_for_status] but whose body is not
    JSON is logged as sent and then makes the call raise, without a retry. *)
Theorem undecodable_body_raises_after_success_log :
  forall (payload : dict) (retries : Z) (delay : float) (w : World),
    1 <= retries ->
    net env (n_posts w) = PostReturned (mkResponse None None) ->
    send_to_laravel_with_retry env payload retries delay w =
      (Raise (ValueError "JSONDecodeError"),
       w ++ [post_event env payload; Log INFO SentToLaravel]).
Proof.
  intros payload retries delay w Hret Hnet.
  unfold send_to_laravel_with_retry, range.
  replace (Z.to_nat retries) with (S (Z.to_nat retries - 1)) by lia.
  cbn [seq map for_attempt]. unfold bind at 1.
  unfold attempt_body, try_except, bind, client_post.
  rewrite Hnet. simpl. unfold logger, emit, post_event.
  rewrite <- app_assoc. reflexivity.
Qed.



End TaskProps.

(** ** More on the route and the background task *)

Section ServiceMore.

Variable env : Env.

(** The four outcomes of a request to [POST /chunk]. *)
Lemma post_chunk_cases (req : Request) :
  (x_internal_api_key req = None /\
   post_chunk env req = (ValidationError, [])) \/
  (exists key,
      x_internal_api_key req = Some key /\ API_KEY env <> Some key /\
      post_chunk env req =
        (JSONResponse 401 [("detail"%string, JStr (lit "Unauthorized"))],
         [])) \/
  (exists key,
      x_internal_api_key req = Some key /\ API_KEY env = Some key /\
      ~ In (type (body req)) allowed_types /\
      post_chunk env req =
        (JSONResponse 400
           [("detail"%string, JStr (lit "Invalid lesson type"))], [])) \/
  (exists key,
      x_internal_api_key req = Some key /\ API_KEY env = Some key /\
      In (type (body req)) allowed_types /\
      post_chunk env req = (JSONResponse 200 accepted_body, [body req])).
Proof.
  unfold post_chunk.
  destruct (x_internal_api_key req) as [key |]; [| now left].
  right.
  assert (Hdec : API_KEY env = Some key \/ API_KEY env <> Some key).
  { destruct (API_KEY env) as [k |]; [| right; discriminate].
    destruct (list_eq_dec N.eq_dec k key) as [-> | Hne];
      [now left | right; congruence]. }
  destruct Hdec as [Hk | Hk].
  - right. rewrite (verify_api_key_ok env key Hk).
    destruct (existsb (str_eqb (type (body req))) allowed_types) eqn:Ht.
    + right. exists key. apply allowed_types_In in Ht.
      rewrite (chunk_lesson_valid _ _ Ht). now repeat split.
    + left. exists key.
      assert (Hn : ~ In (type (body req)) allowed_types).
      { intros Hin. apply allowed_types_In in Hin. congruence. }
      rewrite (chunk_lesson_invalid _ _ Hn). now repeat split.
  - left. exists key. rewrite (verify_api_key_rejects env key Hk).
    now repeat split.
Qed.

(** X6: the route answers 200, 400, 401 or 422; it answers 200 exactly
    when the header carries the configured secret and the type is one of
    the three documented values; and it schedules the request's lesson,
    once, exactly when it answers 200, and nothing otherwise. *)
Theorem lesson_is_scheduled_iff_accepted :
  forall (req : Request),
    let status := status_of (fst (post_chunk env req)) in
    let tasks := snd (post_chunk env req) in
    (status = 200 \/ status = 400 \/ status = 401 \/ status = 422) /\
    (status = 200 <->
     (exists key, x_internal_api_key req = Some key /\
                  API_KEY env = Some key) /\
     In (type (body req)) allowed_types) /\
    (status = 200 -> tasks = [body req]) /\
    (status <> 200 -> tasks = []).
Proof.
  intros req status tasks. subst status tasks.
  destruct (post_chunk_cases req)
    as [[Hh Hpc] | [(k & Hh & Hk & Hpc) | [(k & Hh & Hk & Ht & Hpc)
                                          | (k & Hh & Hk & Ht & Hpc)]]];
    rewrite Hpc; simpl.
  - split; [auto |]. split; [| split; [discriminate | reflexivity]].
    split; [discriminate |]. intros [(key & Hs & _) _]. congruence.
  - split; [auto |]. split; [| split; [discriminate | reflexivity]].
    split; [discriminate |]. intros [(key & Hs & Hk') _]. congruence.
  - split; [auto |]. split; [| split; [discriminate | reflexivity]].
    split; [discriminate |]. intros [_ Hin]. contradiction.
  - split; [auto |]. split; [| split; [reflexivity | congruence]].
    split; [| reflexivity]. intros _. split; [now exists k | exact Ht].
Qed.

(** X7: when the payload is printed and the first attempt succeeds, the
    task's whole trace is the chunker call, the printed payload, one
    request and two INFO lines: no warning, no error, no sleep. *)
Theorem delivered_at_first_attempt :
  forall (data : LessonInput) (c : Chunk) (cs : list Chunk) (w : World)
         (j : json),
    chunker env (strip (lesson_content data)) = Ret (c :: cs) ->
    stdout env (build_payload data (strip (lesson_content data))
                  (map chunk_record (enumerate (c :: cs)))) = None ->
    delivered (net env (n_posts w)) = Some j ->
    let payload :=
      build_payload data (strip (lesson_content data))
        (map chunk_record (enumerate (c :: cs))) in
    process_lesson env data w =
      (Ret tt,
       w ++ [ChunkerCall (strip (lesson_content data));
             Print payload;
             post_event env payload;
             Log INFO SentToLaravel;
             Log INFO (ProcessedAndSent (lesson_id data))]).
Proof.
  intros data c cs w j Hc Hout Hd payload.
  assert (Hp := process_lesson_chunked env data _ w _
                  (chunking_stage_ok env _ c cs w Hc) Hout).
  fold payload in Hp.
  set (w1 := (w ++ [ChunkerCall (strip (lesson_content data))])
               ++ [Print payload]) in *.
  assert (Hn : n_posts w1 = n_posts w)
    by (unfold w1; rewrite !n_posts_app; simpl; lia).
  assert (Hs : send_to_laravel_with_retry env payload default_retries
                 default_delay w1 =
               (Ret j, w1 ++ [post_event env payload; Log INFO SentToLaravel])).
  { unfold send_to_laravel_with_retry, range.
    change (Z.to_nat default_retries) with 3%nat.
    cbn [seq map for_attempt]. unfold bind at 1. rewrite <- Hn in Hd.
    now rewrite (attempt_body_success env payload _ _ _ w1 j Hd). }
  rewrite Hs in Hp. rewrite Hp. unfold w1.
  rewrite <- !app_assoc. reflexivity.
Qed.

(** X8: when the payload is printed and the remote end accepts the
    request but answers with a body that is not JSON, the task stops
    after that one request and logs the lesson as a final failure, right
    after the line that says it was sent. *)
Theorem accepted_but_undecodable_is_logged_as_failure :
  forall (data : LessonInput) (c : Chunk) (cs : list Chunk) (w : World),
    chunker env (strip (lesson_content data)) = Ret (c :: cs) ->
    stdout env (build_payload data (strip (lesson_content data))
                  (map chunk_record (enumerate (c :: cs)))) = None ->
    net env (n_posts w) = PostReturned (mkResponse None None) ->
    let payload :=
      build_payload data (strip (lesson_content data))
        (map chunk_record (enumerate (c :: cs))) in
    process_lesson env data w =
      (Ret tt,
       w ++ [ChunkerCall (strip (lesson_content data));
             Print payload;
             post_event env payload;
             Log INFO SentToLaravel;
             Log ERROR (FinalFailure (lesson_id data)
                          (ValueError "JSONDecodeError"))]).
Proof.
  intros data c cs w Hc Hout Hnet payload.
  assert (Hp := process_lesson_chunked env data _ w _
                  (chunking_stage_ok env _ c cs w Hc) Hout).
  fold payload in Hp.
  set (w1 := (w ++ [ChunkerCall (strip (lesson_content data))])
               ++ [Print payload]) in *.
  assert (Hn : n_posts w1 = n_posts w)
    by (unfold w1; rewrite !n_posts_app; simpl; lia).
  rewrite <- Hn in Hnet.
  assert (Hs : send_to_laravel_with_retry env payload default_retries
                 default_delay w1 =
               (Raise (ValueError "JSONDecodeError"),
                w1 ++ [post_event env payload; Log INFO SentToLaravel])).
  { unfold send_to_laravel_with_retry, range.
    change (Z.to_nat default_retries) with 3%nat.
    cbn [seq map for_attempt]. unfold bind at 1.
    unfold attempt_body, try_except, bind, client_post.
    rewrite Hnet. simpl. unfold logger, emit, post_event.
    rewrite <- app_assoc. reflexivity. }
  rewrite Hs in Hp. rewrite Hp. unfold w1.
  rewrite <- !app_assoc. reflexivity.
Qed.

(** X9: every run of the task, whatever the chunker, the remote end and
    the standard output do, calls the chunker exactly once, as its first
    step, and sends at most 3 requests; its requests and sleeps are, in
    order, requests separated by sleeps of 2 s then 4 s, none after the
    last request; and it returns normally, unless [print] raised, in
    which case that exception leaves the task and nothing was sent. *)
Theorem task_is_bounded :
  forall (data : LessonInput) (w : World),
    exists tail : list Event,
      snd (process_lesson env data w) =
        w ++ ChunkerCall (strip (lesson_content data)) :: tail /\
      n_chunker_calls tail = 0%nat /\
      (n_posts tail <= 3)%nat /\
      (skeleton tail = [] \/
       exists payload m,
         (m <= 2)%nat /\
         skeleton tail = schedule env payload default_delay 0 m) /\
      sleeps tail = firstn (n_posts tail - 1) [2%float; 4%float] /\
      (fst (process_lesson env data w) = Ret tt \/
       exists chunks e,
         stdout env (build_payload data (strip (lesson_content data)) chunks)
           = Some e /\
         fst (process_lesson env data w) = Raise e /\
         n_posts tail = 0%nat).
Proof.
  intros data w.
  destruct (process_lesson_profile env data w)
    as (tail & Htr & Hc & Hsk & Hres).
  exists tail. split; [exact Htr |]. split; [exact Hc |].
  assert (Hcount : (n_posts tail <= 3)%nat /\
                   sleeps tail =
                     firstn (n_posts tail - 1) [2%float; 4%float]).
  { rewrite <- (n_posts_skeleton tail), <- (sleeps_skeleton tail).
    destruct Hsk as [Hsk | (p & m & Hm & Hsk)]; rewrite Hsk.
    - split; [simpl; lia | reflexivity].
    - rewrite n_posts_schedule, sleeps_schedule.
      split; [lia |].
      destruct m as [| [| [| m]]]; [reflexivity .. | lia]. }
  destruct Hcount as [Hle Hsl].
  split; [exact Hle |]. split; [exact Hsk |]. split; [exact Hsl |].
  destruct Hres as [Hret | (chunks & e & Hout & Hraise & ->)];
    [now left |].
  right. exists chunks, e. now repeat split.
Qed.

Lemma serve_trace (req : Request) (w : World) :
  snd (serve env req w) =
    snd (run_tasks env (snd (post_chunk env req))
           (w ++ [Respond (fst (post_chunk env req))])).
Proof.
  unfold serve. destruct (post_chunk env req) as [resp tasks].
  unfold bind, emit, try_except. simpl.
  destruct (run_tasks env tasks (w ++ [Respond resp])) as [[[] | e] w1];
    [reflexivity | destruct e; reflexivity].
Qed.

(** X10: serving one request puts the response first; a rejected request
    causes nothing else, an accepted one causes one chunker call and at
    most 3 outbound requests, all after the response. *)
Theorem one_request_causes_bounded_work :
  forall (req : Request) (w : World),
    exists tail : list Event,
      snd (serve env req w) =
        w ++ Respond (fst (post_chunk env req)) :: tail /\
      (status_of (fst (post_chunk env req)) <> 200 -> tail = []) /\
      (status_of (fst (post_chunk env req)) = 200 ->
       n_chunker_calls tail = 1%nat) /\
      (n_posts tail <= 3)%nat.
Proof.
  intros req w. rewrite serve_trace.
  destruct (post_chunk_cases req)
    as [[Hh Hpc] | [(k & Hh & Hk & Hpc) | [(k & Hh & Hk & Ht & Hpc)
                                          | (k & Hh & Hk & Ht & Hpc)]]];
    rewrite Hpc; simpl fst; simpl snd.
  1-3: exists []; simpl; repeat split; try lia; discriminate.
  simpl run_tasks. unfold bind.
  destruct (process_lesson_profile env (body req)
              (w ++ [Respond (JSONResponse 200 accepted_body)]))
    as (tail & Htr & Hc & Hsk & _).
  assert (Hle : (n_posts tail <= 3)%nat).
  { rewrite <- (n_posts_skeleton tail).
    destruct Hsk as [Hsk | (p & m & Hm & Hsk)]; rewrite Hsk;
      [simpl; lia | rewrite n_posts_schedule; lia]. }
  assert (Hsnd : snd (let (r, w') :=
                        process_lesson env (body req)
                          (w ++ [Respond (JSONResponse 200 accepted_body)])
                      in match r with
                         | Ret _ => ret tt w'
                         | Raise e => (Raise e, w')
                         end) =
                 snd (process_lesson env (body req)
                        (w ++ [Respond (JSONResponse 200 accepted_body)])))
    by (destruct (process_lesson env (body req) _) as [[[] | e] w'];
        reflexivity).
  rewrite Hsnd, Htr.
  exists (ChunkerCall (strip (lesson_content (body req))) :: tail).
  split; [now rewrite <- app_assoc |].
  split; [intros H; now contradiction H |].
  split; [intros _; simpl; now rewrite Hc |].
  simpl. exact Hle.
Qed.

End ServiceMore.

(** ** Trimming *)

Lemma lstrip_split (s : str) :
  exists p, s = p ++ lstrip s /\ Forall (fun c => isspace c = true) p.
Proof.
  induction s as [| c s (p & Hs & Hp)]; simpl.
  - exists []. now split.
  - destruct (isspace c) eqn:Hc.
    + exists (c :: p). split; [simpl; now f_equal | now constructor].
    + exists []. now split.
Qed.

Lemma lstrip_head (s : str) (c : N) :
  hd_error (lstrip s) = Some c -> isspace c = false.
Proof.
  induction s as [| d s IH]; simpl; [discriminate |].
  destruct (isspace d) eqn:Hd; [exact IH |].
  simpl. intros H. now injection H as <-.
Qed.

Lemma lstrip_id (s : str) :
  (forall c, hd_error s = Some c -> isspace c = false) -> lstrip s = s.
Proof.
  destruct s as [| c s]; simpl; [reflexivity |].
  intros H. now rewrite (H c eq_refl).
Qed.

Lemma rstrip_split (s : str) :
  exists q, s = rstrip s ++ q /\ Forall (fun c => isspace c = true) q.
Proof.
  destruct (lstrip_split (rev s)) as (p & Hs & Hp).
  exists (rev p). split.
  - unfold rstrip. rewrite <- rev_app_distr, <- Hs.
    now rewrite rev_involutive.
  - now apply Forall_rev.
Qed.

Lemma rstrip_last (s : str) (c : N) :
  hd_error (rev (rstrip s)) = Some c -> isspace c = false.
Proof.
  unfold rstrip. rewrite rev_involutive. apply lstrip_head.
Qed.

Lemma rstrip_head (s : str) (c : N) :
  hd_error (rstrip s) = Some c -> hd_error s = Some c.
Proof.
  destruct (rstrip_split s) as (q & Hs & _).
  intros H. rewrite Hs. destruct (rstrip s); [discriminate | exact H].
Qed.

Lemma strip_head (s : str) (c : N) :
  hd_error (strip s) = Some c -> isspace c = false.
Proof.
  intros H. apply (lstrip_head s). now apply rstrip_head.
Qed.

Lemma strip_last (s : str) (c : N) :
  hd_error (rev (strip s)) = Some c -> isspace c = false.
Proof. apply rstrip_last. Qed.

Lemma strip_idempotent (s : str) : strip (strip s) = strip s.
Proof.
  unfold strip at 1.
  rewrite (lstrip_id (strip s)) by apply strip_head.
  unfold rstrip.
  rewrite (lstrip_id (rev (strip s))) by apply strip_last.
  apply rev_involutive.
Qed.

(** X11: the text the task chunks and sends is the lesson content with
    whitespace removed at both ends and nothing else: the content is
    [p ++ text ++ q] with [p] and [q] made of whitespace, and [text]
    neither starts nor ends with whitespace. *)
Theorem trimmed_text_is_the_content_without_its_margins :
  forall (data : LessonInput),
    let full_text := strip (lesson_content data) in
    exists p q,
      lesson_content data = p ++ full_text ++ q /\
      Forall (fun c => isspace c = true) p /\
      Forall (fun c => isspace c = true) q /\
      (forall c, hd_error full_text = Some c -> isspace c = false) /\
      (forall c, hd_error (rev full_text) = Some c -> isspace c = false).
Proof.
  intros data full_text. subst full_text.
  destruct (lstrip_split (lesson_content data)) as (p & Hs & Hp).
  destruct (rstrip_split (lstrip (lesson_content data))) as (q & Hr & Hq).
  exists p, q. fold (strip (lesson_content data)) in Hr.
  split; [now rewrite <- Hr |].
  split; [exact Hp |]. split; [exact Hq |].
  split; [apply strip_head | apply strip_last].
Qed.

Lemma process_lesson_through_strip (env : Env) (data data' : LessonInput)
    (w : World) :
  course_id data = course_id data' ->
  lesson_id data = lesson_id data' ->
  type data = type data' ->
  strip (lesson_title data) = strip (lesson_title data') ->
  strip (lesson_content data) = strip (lesson_content data') ->
  process_lesson env data w = process_lesson env data' w.
Proof.
  intros Hc Hl Ht Htitle Hcontent.
  unfold process_lesson, build_payload.
  now rewrite Hc, Hl, Ht, Htitle, Hcontent.
Qed.

(** X12: trimming is applied once and for all: a lesson and the same
    lesson with its title and content already trimmed run the same way,
    event for event, so margins of whitespace never reach the chunker or
    the remote end. *)
Theorem surrounding_whitespace_is_ignored :
  forall (env : Env) (data : LessonInput) (w : World),
    process_lesson env data w =
    process_lesson env
      (mkLessonInput (course_id data) (lesson_id data)
         (strip (lesson_title data)) (strip (lesson_content data))
         (type data)) w.
Proof.
  intros env data w.
  apply process_lesson_through_strip; simpl; try reflexivity;
    symmetry; apply strip_idempotent.
Qed.

(** ** Runs on the sample environments *)





Lemma invalid_type_is_400_and_schedules_nothing_witness :
  status_of (fst (post_chunk (tiny_env net_up)
                    (mkRequest (Some secret) odd_lesson))) = 400 /\
  snd (post_chunk (tiny_env net_up) (mkRequest (Some secret) odd_lesson)) = [].
Proof.
  assert (Hty : ~ In (type (body (mkRequest (Some secret) odd_lesson)))
                  allowed_types).
  { intros H. apply allowed_types_In in H. discriminate. }
  destruct (invalid_type_is_400_and_schedules_nothing (tiny_env net_up)
              (mkRequest (Some secret) odd_lesson) secret []
              eq_refl eq_refl Hty) as [Hpc _].
  rewrite Hpc. split; reflexivity.
Defined.

(** C4, as stated, fails: a request without the key header is answered
    with 422, not 401. *)
Lemma missing_key_header_is_not_401 :
  x_internal_api_key (mkRequest None sample_lesson) = None /\
  status_of (fst (post_chunk (tiny_env net_up)
                    (mkRequest None sample_lesson))) = 422 /\
  status_of (fst (post_chunk (tiny_env net_up)
                    (mkRequest None sample_lesson))) <> 401.
Proof.
  repeat split. discriminate.
Qed.

Lemma bad_key_is_rejected_for_every_type_witness :
  status_of (fst (post_chunk (tiny_env net_up)
                    (mkRequest (Some (lit "guess")) odd_lesson))) = 401 /\
  snd (post_chunk (tiny_env net_up)
         (mkRequest (Some (lit "guess")) odd_lesson)) = [].
Proof.
  assert (H : forall key,
             x_internal_api_key (mkRequest (Some (lit "guess")) odd_lesson)
               = Some key ->
             API_KEY (tiny_env net_up) <> Some key).
  { intros key Hk. injection Hk as <-. discriminate. }
  destruct (bad_key_is_rejected_for_every_type (tiny_env net_up)
              (mkRequest (Some (lit "guess")) odd_lesson) H) as [Ht Hs].
  split; [exact Hs | exact Ht].
Defined.



Lemma chunking_failure_aborts_silently_witness :
  process_lesson (sample_env failing_chunker net_up) tiny_lesson [] =
    (Ret tt,
     [ChunkerCall (lit "ab cd");
      Log ERROR (ChunkingFailed 9
                   (OtherException (lit "tokenizer failure")))]).
Proof.
  assert (H : chunker (sample_env failing_chunker net_up)
                (strip (lesson_content tiny_lesson)) = Ret [] \/
              exists e, chunker (sample_env failing_chunker net_up)
                          (strip (lesson_content tiny_lesson)) = Raise e).
  { right. eexists. reflexivity. }
  destruct (chunking_failure_aborts_silently
              (sample_env failing_chunker net_up) tiny_lesson [] H)
    as (e & Hp & _ & _ & He).
  rewrite Hp, (He _ eq_refl). reflexivity.
Defined.

Lemma outbound_post_shape_witness :
  exists payload tail,
    snd (process_lesson (tiny_env net_up) tiny_lesson []) = tail /\
    In (Post (Some (lit "https://laravel.test/api/chunks"))
             [("X-Internal-API-Key"%string, Some secret)] payload) tail /\
    keys payload =
      ["title"; "text"; "course_id"; "lesson_id"; "type"; "chunks"]%string /\
    dict_get payload "title" = Some (JStr (lit "T")) /\
    dict_get payload "text" = Some (JStr (lit "ab cd")) /\
    dict_get payload "type" = Some (JStr (lit "updated")).
Proof.
  destruct (outbound_post_shape (tiny_env net_up) tiny_lesson
              (mkChunk (lit "ab ")) [mkChunk (lit "cd")] [] eq_refl)
    as (payload & tail & Htail & Hin & _ & Hkeys & Htitle & Htext
        & _ & _ & Htype & _).
  exists payload, tail.
  split; [exact Htail |]. split; [exact (Hin eq_refl) |].
  split; [exact Hkeys |].
  split; [exact Htitle |]. split; [exact Htext | exact Htype].
Defined.

Lemma unprintable_payload_escapes_witness :
  process_lesson env_ascii_stdout tiny_lesson [] =
    (Raise (OtherException (lit "UnicodeEncodeError")),
     [ChunkerCall (lit "ab cd")]) /\
  n_posts (snd (process_lesson env_ascii_stdout tiny_lesson [])) = 0%nat.
Proof.
  destruct (unprintable_payload_escapes env_ascii_stdout tiny_lesson
              (mkChunk (lit "ab ")) [mkChunk (lit "cd")] []
              (OtherException (lit "UnicodeEncodeError")) eq_refl eq_refl)
    as [Hp Hn].
  split; [exact Hp | exact Hn].
Defined.

Lemma valid_request_is_acknowledged_first_witness :
  post_chunk (tiny_env net_up) (mkRequest (Some secret) tiny_lesson) =
    (JSONResponse 200 accepted_body, [tiny_lesson]) /\
  fst (serve (tiny_env net_up) (mkRequest (Some secret) tiny_lesson) []) =
    Ret (JSONResponse 200 accepted_body).
Proof.
  assert (Hty : In (type (body (mkRequest (Some secret) tiny_lesson)))
                  allowed_types).
  { apply allowed_types_In. reflexivity. }
  destruct (valid_request_is_acknowledged_first (tiny_env net_up)
              (mkRequest (Some secret) tiny_lesson) secret []
              eq_refl eq_refl Hty) as (Hpc & _ & _ & Hs & _).
  split; [exact Hpc | exact Hs].
Defined.

Lemma absent_secret_rejects_every_key_witness :
  verify_api_key env_without_secret secret =
    Raise (HTTPException 401 "Unauthorized") /\
  status_of (fst (post_chunk env_without_secret
                    (mkRequest (Some secret) tiny_lesson))) = 401.
Proof.
  destruct (absent_secret_rejects_every_key env_without_secret
              (mkRequest (Some secret) tiny_lesson) secret
              eq_refl eq_refl) as [Hv Hpc].
  split; [exact Hv | now rewrite Hpc].
Defined.

Lemma no_attempt_without_retries_witness :
  send_to_laravel_with_retry (tiny_env net_up) sample_payload (-2) 2%float [] =
    (Ret JNull, []).
Proof.
  apply (no_attempt_without_retries (tiny_env net_up) sample_payload (-2) 2%float []).
  lia.
Defined.

Lemma other_exception_is_not_retried_witness :
  n_posts (snd (send_to_laravel_with_retry (tiny_env net_crash)
                  sample_payload 3 2%float [])) = 1%nat /\
  fst (send_to_laravel_with_retry (tiny_env net_crash) sample_payload 3 2%float [])
    = Raise (OtherException (lit "InvalidURL")).
Proof.
  assert (H : 1 <= 3) by lia.
  rewrite (other_exception_is_not_retried (tiny_env net_crash)
             sample_payload 3 2%float [] (OtherException (lit "InvalidURL"))
             H eq_refl eq_refl).
  split; reflexivity.
Defined.

Lemma undecodable_body_raises_after_success_log_witness :
  fst (send_to_laravel_with_retry (tiny_env net_bad_json)
         sample_payload 3 2%float []) = Raise (ValueError "JSONDecodeError") /\
  n_posts (snd (send_to_laravel_with_retry (tiny_env net_bad_json)
                  sample_payload 3 2%float [])) = 1%nat.
Proof.
  assert (H : 1 <= 3) by lia.
  rewrite (undecodable_body_raises_after_success_log (tiny_env net_bad_json)
             sample_payload 3 2%float [] H eq_refl).
  split; reflexivity.
Defined.



Lemma delivered_at_first_attempt_witness :
  n_posts (snd (process_lesson (tiny_env net_up) tiny_lesson [])) = 1%nat /\
  sleeps (snd (process_lesson (tiny_env net_up) tiny_lesson [])) = [].
Proof.
  rewrite (delivered_at_first_attempt (tiny_env net_up) tiny_lesson
             (mkChunk (lit "ab ")) [mkChunk (lit "cd")] []
             (JObj [("status"%string, JStr (lit "ok"))])
             eq_refl eq_refl eq_refl).
  split; reflexivity.
Defined.

Lemma accepted_but_undecodable_is_logged_as_failure_witness :
  n_posts (snd (process_lesson (tiny_env net_bad_json) tiny_lesson []))
    = 1%nat /\
  fst (process_lesson (tiny_env net_bad_json) tiny_lesson []) = Ret tt.
Proof.
  rewrite (accepted_but_undecodable_is_logged_as_failure
             (tiny_env net_bad_json) tiny_lesson
             (mkChunk (lit "ab ")) [mkChunk (lit "cd")] []
             eq_refl eq_refl eq_refl).
  split; reflexivity.
Defined.
